(** * FrameLift AI backend: the handlers of [server.js]

    A shallow embedding of the three Express handlers of [server.js]
    (health, [/on_auth], [/upload]) together with the parts of the runtime
    they call: [JSON.stringify], [encodeURIComponent], [axios.post],
    [fs.unlinkSync], [console.log]/[console.error] and the [res] methods.

    JavaScript strings are sequences of UTF-16 code units; handlers run in
    a small exception-and-state monad over the filesystem, and every call
    that leaves the process (console, network, filesystem) is recorded as
    an event of the run. *)

From Stdlib Require Import String Ascii NArith List Lia.
From stdpp Require Import base option list gmap.
Import ListNotations.

Local Open Scope N_scope.
Set Warnings "-register-all".

(** ** JavaScript strings *)

Module JSString.

(** A string is its sequence of UTF-16 code units. *)
Abbreviation jsstring := (list N).

(** An ASCII literal of the source, as code units. *)
Definition lit (s : string) : jsstring :=
  List.map N_of_ascii (list_ascii_of_string s).

Definition is_high_surrogate (c : N) : bool := (0xD800 <=? c) && (c <=? 0xDBFF).
Definition is_low_surrogate (c : N) : bool := (0xDC00 <=? c) && (c <=? 0xDFFF).

(** UTF16SurrogatePairToCodePoint *)
Definition pair_code_point (hi lo : N) : N :=
  (hi - 0xD800) * 0x400 + (lo - 0xDC00) + 0x10000.

Definition hex_digit (upper : bool) (d : N) : N :=
  if d <? 10 then 48 + d else (if upper then 55 else 87) + d.

Definition nibble (c : N) (i : N) : N := N.land (N.shiftr c (4 * i)) 0xF.

(** [Array.prototype.join] on strings. *)
Fixpoint join (sep : jsstring) (parts : list jsstring) : jsstring :=
  match parts with
  | [] => []
  | [p] => p
  | p :: rest => p ++ sep ++ join sep rest
  end.

End JSString.
Import JSString.

(** ** [JSON.stringify] *)

Module JSON.

(** UnicodeEscape: a backslash, [u], four lowercase hexadecimal digits. *)
Definition UnicodeEscape (c : N) : jsstring :=
  [0x5C; 0x75; hex_digit false (nibble c 3); hex_digit false (nibble c 2);
   hex_digit false (nibble c 1); hex_digit false (nibble c 0)].

(** The code points that are neither paired surrogates nor lone ones. *)
Definition quote_code_unit (c : N) : jsstring :=
  if c =? 0x08 then lit "\b"
  else if c =? 0x09 then lit "\t"
  else if c =? 0x0A then lit "\n"
  else if c =? 0x0C then lit "\f"
  else if c =? 0x0D then lit "\r"
  else if c =? 0x22 then [0x5C; 0x22]
  else if c =? 0x5C then lit "\\"
  else if c <? 0x20 then UnicodeEscape c
  else [c].

(** The body of QuoteJSONString: a surrogate pair is copied, a lone
    surrogate is escaped. *)
Fixpoint quote_units (s : jsstring) : jsstring :=
  match s with
  | [] => []
  | c :: t =>
      if is_high_surrogate c then
        match t with
        | l :: t' =>
            if is_low_surrogate l then c :: l :: quote_units t'
            else UnicodeEscape c ++ quote_units t
        | [] => UnicodeEscape c
        end
      else if is_low_surrogate c then UnicodeEscape c ++ quote_units t
      else quote_code_unit c ++ quote_units t
  end.

Definition QuoteJSONString (s : jsstring) : jsstring :=
  [0x22] ++ quote_units s ++ [0x22].

End JSON.

(** ** [encodeURIComponent] *)

Module URI.

Definition is_alpha (c : N) : bool :=
  ((0x41 <=? c) && (c <=? 0x5A)) || ((0x61 <=? c) && (c <=? 0x7A)).
Definition is_digit (c : N) : bool := (0x30 <=? c) && (c <=? 0x39).

(** uriMark: [-_.!~*'()] *)
Definition is_mark (c : N) : bool :=
  existsb (N.eqb c) [0x2D; 0x5F; 0x2E; 0x21; 0x7E; 0x2A; 0x27; 0x28; 0x29].

Definition unreserved (c : N) : bool := is_alpha c || is_digit c || is_mark c.

Definition utf8 (cp : N) : list N :=
  if cp <? 0x80 then [cp]
  else if cp <? 0x800 then
    [N.lor 0xC0 (N.shiftr cp 6); N.lor 0x80 (N.land cp 0x3F)]
  else if cp <? 0x10000 then
    [N.lor 0xE0 (N.shiftr cp 12); N.lor 0x80 (N.land (N.shiftr cp 6) 0x3F);
     N.lor 0x80 (N.land cp 0x3F)]
  else
    [N.lor 0xF0 (N.shiftr cp 18); N.lor 0x80 (N.land (N.shiftr cp 12) 0x3F);
     N.lor 0x80 (N.land (N.shiftr cp 6) 0x3F); N.lor 0x80 (N.land cp 0x3F)].

Definition percent (octet : N) : jsstring :=
  [0x25; hex_digit true (nibble octet 1); hex_digit true (nibble octet 0)].

Definition escape_code_point (cp : N) : jsstring :=
  List.concat (List.map percent (utf8 cp)).

(** Encode(string, unreserved): [None] is the URIError thrown at an
    unpaired surrogate. *)
Fixpoint Encode (s : jsstring) : option jsstring :=
  match s with
  | [] => Some []
  | c :: t =>
      if unreserved c then cons c <$> Encode t
      else if is_low_surrogate c then None
      else if is_high_surrogate c then
        match t with
        | l :: t' =>
            if is_low_surrogate l
            then app (escape_code_point (pair_code_point c l)) <$> Encode t'
            else None
        | [] => None
        end
      else app (escape_code_point c) <$> Encode t
  end.

(** [Encode] does not throw on [s]. *)
Definition encodable (s : jsstring) : Prop := is_Some (Encode s).

End URI.

(** ** JavaScript values *)

(** Numbers are IEEE doubles in the runtime; the handlers never compute
    with them, so the model takes the number type with the three
    operations the runtime applies to it. *)
Class JSNumber (number : Type) := {
  Number_toString : number -> jsstring;
  Number_isFinite : number -> bool;
  Number_toBoolean : number -> bool;
  (** Number::toString yields digits, a sign, a point, an exponent mark,
      or one of the words Infinity and NaN. *)
  Number_toString_ascii : forall n, Forall (fun c => c < 0x80) (Number_toString n)
}.

Section Values.
Context {number : Type} `{JSNumber number}.

(** The values that reach the handlers come out of a parser ([JSON.parse]
    in axios, [qs] for the query, multer and body-parser for the body):
    null, booleans, numbers, strings, arrays and plain objects, an object
    being its properties in enumeration order. [undefined] occurs only as
    the result of reading a missing property or variable, rendered as
    [None] of [option value]. *)
Inductive value : Type :=
| VNull
| VBool (b : bool)
| VNum (n : number)
| VStr (s : jsstring)
| VArr (elems : list value)
| VObj (props : list (jsstring * value)).

(** ToBoolean, as applied by [!x] and [x || y]. *)
Definition ToBoolean (v : option value) : bool :=
  match v with
  | None => false
  | Some VNull => false
  | Some (VBool b) => b
  | Some (VNum n) => Number_toBoolean n
  | Some (VStr s) => negb (bool_decide (s = []))
  | Some (VArr _) => true
  | Some (VObj _) => true
  end.

(** [obj.key] on a plain object. *)
Fixpoint get (props : list (jsstring * value)) (key : jsstring) : option value :=
  match props with
  | [] => None
  | (k, v) :: rest => if bool_decide (k = key) then Some v else get rest key
  end.

(** SerializeJSONProperty without replacer or indentation. *)
Fixpoint JSON_stringify (v : value) : jsstring :=
  match v with
  | VNull => lit "null"
  | VBool true => lit "true"
  | VBool false => lit "false"
  | VNum n => if Number_isFinite n then Number_toString n else lit "null"
  | VStr s => JSON.QuoteJSONString s
  | VArr elems =>
      lit "[" ++ join (lit ",") (List.map JSON_stringify elems) ++ lit "]"
  | VObj props =>
      lit "{" ++
      join (lit ",")
        (List.map (fun p => let '(k, x) := p in
                            JSON.QuoteJSONString k ++ lit ":" ++ JSON_stringify x)
                  props) ++
      lit "}"
  end.

End Values.
Arguments value : clear implicits.

(** ** Induction over values *)

Section ValueInduction.
Context {number : Type}.
Variable P : value number -> Prop.
Hypothesis HNull : P VNull.
Hypothesis HBool : forall b, P (VBool b).
Hypothesis HNum : forall n, P (VNum n).
Hypothesis HStr : forall s, P (VStr s).
Hypothesis HArr : forall elems, Forall P elems -> P (VArr elems).
Hypothesis HObj : forall props, Forall (fun kv => P kv.2) props -> P (VObj props).

Fixpoint value_nested_ind (v : value number) : P v :=
  match v with
  | VNull => HNull
  | VBool b => HBool b
  | VNum n => HNum n
  | VStr s => HStr s
  | VArr elems =>
      HArr elems
        ((fix all (l : list (value number)) : Forall P l :=
            match l with
            | [] => @List.Forall_nil _ P
            | x :: r => @List.Forall_cons _ P x r (value_nested_ind x) (all r)
            end) elems)
  | VObj props =>
      HObj props
        ((fix all (l : list (jsstring * value number))
            : Forall (fun kv => P kv.2) l :=
            match l with
            | [] => @List.Forall_nil _ (fun kv => P kv.2)
            | kv :: r =>
                @List.Forall_cons _ (fun kv => P kv.2) kv r (value_nested_ind kv.2) (all r)
            end) props)
  end.
End ValueInduction.

(** ** The runtime the handlers call *)

Section Runtime.
Context {number : Type} `{JSNumber number}.

(** A thrown error object: [err.message], and [err.response.data] when
    [err.response] is set (axios sets it when the server answered). *)
Record Error := {
  message : jsstring;
  response : option (value number)
}.

(** [axios.post(url, data, { params })]; [data] is [None] for [null]. *)
Record post_request := {
  post_url : jsstring;
  post_data : option (value number);
  post_params : list (jsstring * option (value number))
}.

(** What the network does with a request: no answer at all, or an HTTP
    response with its status and parsed body. *)
Inductive http_outcome :=
| NetworkError (msg : jsstring)
| HttpResponse (status : N) (data : value number).

Inductive logged :=
| LogValue (v : option (value number))
| LogError (e : Error).

(** What a run does outside the process, in order. *)
Inductive event :=
| ConsoleLog (args : list logged)
| ConsoleError (args : list logged)
| HttpPost (r : post_request) (o : http_outcome)
| UnlinkSync (path : jsstring).

(** The temporary storage: the regular files present, and whether the
    volume refuses writes. *)
Record filesystem := {
  files : gset jsstring;
  read_only : bool
}.

Inductive completion (A : Type) :=
| Normal (a : A)
| Throw (e : Error).
Global Arguments Normal {A} a.
Global Arguments Throw {A} e.

(** A computation reads and updates the filesystem, completes normally
    or abruptly, and emits events. *)
Definition M (A : Type) : Type :=
  filesystem -> completion A * filesystem * list event.

Definition ret {A} (a : A) : M A := fun fs => (Normal a, fs, []).

Definition bind {A B} (c : M A) (k : A -> M B) : M B := fun fs =>
  match c fs with
  | (Normal a, fs1, ev1) =>
      let '(r, fs2, ev2) := k a fs1 in (r, fs2, ev1 ++ ev2)
  | (Throw e, fs1, ev1) => (Throw e, fs1, ev1)
  end.

Definition throw {A} (e : Error) : M A := fun fs => (Throw e, fs, []).

(** [try { body } catch (err) { handler }] *)
Definition try_catch {A} (body : M A) (handler : Error -> M A) : M A := fun fs =>
  match body fs with
  | (Normal a, fs1, ev1) => (Normal a, fs1, ev1)
  | (Throw e, fs1, ev1) =>
      let '(r, fs2, ev2) := handler e fs1 in (r, fs2, ev1 ++ ev2)
  end.

(** The three components of a finished run. *)
Definition result {A} (r : completion A * filesystem * list event) : completion A := r.1.1.
Definition final_fs {A} (r : completion A * filesystem * list event) : filesystem := r.1.2.
Definition events {A} (r : completion A * filesystem * list event) : list event := r.2.

Definition emit (e : event) : M unit := fun fs => (Normal tt, fs, [e]).

Definition console_log (args : list logged) : M unit := emit (ConsoleLog args).
Definition console_error (args : list logged) : M unit := emit (ConsoleError args).

(** Decimal digits of a status code, for axios' error message. *)
Fixpoint uint_digits (u : Decimal.uint) : jsstring :=
  match u with
  | Decimal.Nil => []
  | Decimal.D0 u => 48 :: uint_digits u
  | Decimal.D1 u => 49 :: uint_digits u
  | Decimal.D2 u => 50 :: uint_digits u
  | Decimal.D3 u => 51 :: uint_digits u
  | Decimal.D4 u => 52 :: uint_digits u
  | Decimal.D5 u => 53 :: uint_digits u
  | Decimal.D6 u => 54 :: uint_digits u
  | Decimal.D7 u => 55 :: uint_digits u
  | Decimal.D8 u => 56 :: uint_digits u
  | Decimal.D9 u => 57 :: uint_digits u
  end.

(** axios' default [validateStatus]. *)
Definition validateStatus (status : N) : bool :=
  (200 <=? status) && (status <? 300).

Record axios_response := {
  resp_status : N;
  resp_data : value number
}.

(** [await axios.post(url, data, { params })]: resolves with the response
    when its status passes [validateStatus], rejects otherwise. *)
Definition axios_post (network : post_request -> http_outcome)
    (url : jsstring) (data : option (value number))
    (params : list (jsstring * option (value number))) : M axios_response :=
  fun fs =>
    let r := {| post_url := url; post_data := data; post_params := params |} in
    match network r with
    | HttpResponse st d =>
        if validateStatus st
        then (Normal {| resp_status := st; resp_data := d |}, fs,
              [HttpPost r (HttpResponse st d)])
        else (Throw {| message := lit "Request failed with status code " ++
                                  uint_digits (N.to_uint st);
                       response := Some d |}, fs,
              [HttpPost r (HttpResponse st d)])
    | NetworkError msg =>
        (Throw {| message := msg; response := None |}, fs,
         [HttpPost r (NetworkError msg)])
    end.

(** [encodeURIComponent(s)]: throws URIError at an unpaired surrogate. *)
Definition encodeURIComponent (s : jsstring) : M jsstring :=
  match URI.Encode s with
  | Some r => ret r
  | None => throw {| message := lit "URI malformed"; response := None |}
  end.

(** [fs.unlinkSync(path)]: removes a regular file; throws when the file
    is missing (ENOENT) or the volume is read-only (EROFS), leaving the
    filesystem as it was. *)
Definition unlinkSync (path : jsstring) : M unit := fun fs =>
  if bool_decide (path ∈ files fs) then
    if read_only fs then
      (Throw {| message := lit "EROFS: read-only file system, unlink '" ++
                           path ++ lit "'";
                response := None |}, fs, [UnlinkSync path])
    else
      (Normal tt, {| files := files fs ∖ {[ path ]}; read_only := read_only fs |},
       [UnlinkSync path])
  else
    (Throw {| message := lit "ENOENT: no such file or directory, unlink '" ++
                         path ++ lit "'";
              response := None |}, fs, [UnlinkSync path]).

(** The response a handler hands to Express, as it asks for it: the
    status and the argument of [res.send], [res.json] or [res.redirect]
    (200 unless [res.status] was called, 302 for a redirect). *)
Inductive http_response :=
| Send (status : N) (text : jsstring)
| Json (status : N) (body : value number)
| Redirect (status : N) (location : jsstring).

Definition status_of (r : http_response) : N :=
  match r with
  | Send st _ | Json st _ | Redirect st _ => st
  end.

End Runtime.

Arguments Error : clear implicits.
Arguments post_request : clear implicits.
Arguments http_outcome : clear implicits.
Arguments logged : clear implicits.
Arguments event : clear implicits.
Arguments completion : clear implicits.
Arguments M : clear implicits.
Arguments axios_response : clear implicits.
Arguments http_response : clear implicits.

Global Instance M_ret {number} : MRet (M number) := @ret number.
Global Instance M_bind {number} : MBind (M number) :=
  fun A B k c => bind c k.

(** ** Configuration and requests *)

(** [process.env]: a variable is a string or is not set. *)
Record process_env := {
  TIKTOK_CLIENT_KEY : option jsstring;
  TIKTOK_CLIENT_SECRET : option jsstring;
  TIKTOK_REDIRECT_URI : option jsstring;
  ENV_PORT : option jsstring;
  FRONTEND_URL : option jsstring
}.

Section Server.
Context {number : Type} `{JSNumber number}.

(** [req] of [/on_auth]: the parsed query string. *)
Record auth_request := {
  query : list (jsstring * value number)
}.

(** [req.file] as multer's disk storage leaves it. *)
Record multer_file := {
  fieldname : jsstring;
  originalname : jsstring;
  path : jsstring
}.

(** [req] of [/upload]: [req.file] and [req.body]. *)
Record upload_request := {
  file : option multer_file;
  body : option (value number)
}.

(** [v.key] for a value: only plain objects carry named properties. *)
Definition prop (v : value number) (key : jsstring) : option (value number) :=
  match v with
  | VObj props => get props key
  | _ => None
  end.

(** [multer({ dest: '/tmp/uploads/' })] *)
Definition upload_dest : jsstring := lit "/tmp/uploads/".

(** [upload.single('video')] for a request that carries the file: the
    bytes go to a fresh name under [dest] and [req.file] points there. *)
Definition upload_single (original filename : jsstring) (fs : filesystem)
  : multer_file * filesystem :=
  let p := upload_dest ++ filename in
  ({| fieldname := lit "video"; originalname := original; path := p |},
   {| files := files fs ∪ {[ p ]}; read_only := read_only fs |}).

Variable env : process_env.
Variable network : post_request number -> http_outcome number.

Definition CLIENT_KEY : option jsstring := TIKTOK_CLIENT_KEY env.
Definition CLIENT_SECRET : option jsstring := TIKTOK_CLIENT_SECRET env.



Definition token_endpoint : jsstring :=
  lit "https://open-api.tiktok.com/oauth/access_token/".

(** The [params] object of the token request, for a given [code]. *)
Definition token_params (code : option (value number))
  : list (jsstring * option (value number)) :=
  [ (lit "client_key", VStr <$> CLIENT_KEY);
    (lit "client_secret", VStr <$> CLIENT_SECRET);
    (lit "code", code);
    (lit "grant_type", Some (VStr (lit "authorization_code"))) ].

(** The request [axios.post] builds from these arguments. *)
Definition token_request (code : option (value number)) : post_request number :=
  {| post_url := token_endpoint; post_data := None;
     post_params := token_params code |}.

(** [process.env.FRONTEND_URL || '/'] *)
Definition frontend : jsstring :=
  if ToBoolean (VStr <$> FRONTEND_URL env)
  then default [] (FRONTEND_URL env)
  else lit "/".

(** [app.get('/', ...)] *)
Definition health_handler : M number (http_response number) :=
  mret (Send 200 (lit "FrameLift AI backend running")).

(** The [try] block of the [/on_auth] handler. *)
Definition on_auth_try (code : option (value number))
  : M number (http_response number) :=
  tokenResp ← axios_post network token_endpoint None (token_params code);
  let tokenData := resp_data tokenResp in
  tokenQuery ← encodeURIComponent (JSON_stringify tokenData);
  mret (Redirect 302 (frontend ++ lit "?token=" ++ tokenQuery)).

(** Its [catch] block. *)
Definition on_auth_catch (err : Error number)
  : M number (http_response number) :=
  console_error
    [LogValue (Some (VStr (lit "Error exchanging token")));
     match response err with
     | Some d => LogValue (Some d)
     | None => LogValue (Some (VStr (message err)))
     end];;
  mret (Send 500 (lit "Token exchange failed")).

(** [app.get('/on_auth', ...)] *)
Definition on_auth_handler (req : auth_request) : M number (http_response number) :=
  let code := get (query req) (lit "code") in
  let state := get (query req) (lit "state") in
  if negb (ToBoolean code) then mret (Send 400 (lit "Missing code"))
  else try_catch (on_auth_try code) on_auth_catch.

Definition demo_log : jsstring :=
  lit "No access_token provided " ++ [0x2014] ++ lit " running in demo mode".

(** [req.body || {}] *)
Definition body_of (req : upload_request) : value number :=
  if ToBoolean (body req) then default (VObj []) (body req) else VObj [].

(** [body.access_token] *)
Definition accessToken (req : upload_request) : option (value number) :=
  prop (body_of req) (lit "access_token").

Definition no_file_body : value number :=
  VObj [(lit "ok", VBool false); (lit "message", VStr (lit "No file uploaded"))].

Definition demo_body : value number :=
  VObj [(lit "ok", VBool true);
        (lit "demo", VBool true);
        (lit "message", VStr (lit "Demo upload accepted (no TikTok call)"))].

Definition received_body : value number :=
  VObj [(lit "ok", VBool true);
        (lit "message",
         VStr (lit "File received. In production this would be uploaded to TikTok (demo mode)."))].

(** The [try] block of the [/upload] handler. *)
Definition upload_try (req : upload_request) : M number (http_response number) :=
  let file := file req in
  let accessToken := accessToken req in
  match file with
  | None => mret (Json 400 no_file_body)
  | Some f =>
      if negb (ToBoolean accessToken) then
        console_log [LogValue (Some (VStr demo_log))];;
        unlinkSync (path f);;
        mret (Json 200 demo_body)
      else
        unlinkSync (path f);;
        mret (Json 200 received_body)
  end.

(** Its [catch] block. *)
Definition upload_catch (err : Error number) : M number (http_response number) :=
  console_error [LogError err];;
  mret (Json 500 (VObj [(lit "ok", VBool false);
                        (lit "error", VStr (message err))])).

(** [app.post('/upload', upload.single('video'), ...)], the handler. *)
Definition upload_handler (req : upload_request) : M number (http_response number) :=
  try_catch (upload_try req) upload_catch.

(** The token call fails: no answer, or a status that axios rejects. *)
Definition failed (o : http_outcome number) : Prop :=
  match o with
  | NetworkError _ => True
  | HttpResponse st _ => validateStatus st = false
  end.

(** The events of a run, by kind. *)
Definition posts (evs : list (event number))
  : list (post_request number * http_outcome number) :=
  omap (fun e => match e with HttpPost r o => Some (r, o) | _ => None end) evs.

Definition unlinks (evs : list (event number)) : list jsstring :=
  omap (fun e => match e with UnlinkSync p => Some p | _ => None end) evs.

End Server.

Arguments auth_request : clear implicits.
Arguments upload_request : clear implicits.

(** ** What the catch block of [/on_auth] logs *)

(** [err.response ? err.response.data : err.message] for the error axios
    raises on outcome [o]. *)
Definition logged_detail {number : Type} (o : http_outcome number) : value number :=
  match o with
  | HttpResponse _ d => d
  | NetworkError msg => VStr msg
  end.

(** ** What a URL query value may hold *)

(** The characters [Encode] can emit: the unreserved ones and the percent
    sign of an escape. *)
Definition url_safe (c : N) : bool := URI.unreserved c || (c =? 0x25).

(** ** Startup *)



Section Startup.
Context {number : Type} `{JSNumber number}.
Variable env : process_env.



End Startup.

(** ** A number type to run the handlers on

    Natural numbers printed in decimal, as [Number::toString] prints the
    non-negative safe integers. *)

Lemma uint_digits_ascii u : Forall (fun c => c < 0x80) (uint_digits u).
Proof. induction u; simpl; constructor; (lia || done). Qed.

Global Instance NaturalNumber : JSNumber N := {|
  Number_toString n := uint_digits (N.to_uint n);
  Number_isFinite _ := true;
  Number_toBoolean n := negb (n =? 0);
  Number_toString_ascii n := uint_digits_ascii (N.to_uint n)
|}.

(** ** Concrete configuration, requests and storage *)

Module Sample.

Definition env : process_env :=
  {| TIKTOK_CLIENT_KEY := Some (lit "awx1");
     TIKTOK_CLIENT_SECRET := Some (lit "s3cr3t");
     TIKTOK_REDIRECT_URI := Some (lit "https://app.example/on_auth");
     ENV_PORT := None;
     FRONTEND_URL := None |}.

(** A token payload with a lone surrogate in one of its strings. *)
Definition token : value N :=
  VObj [(lit "access_token", VStr (lit "act.1 2/3"));
        (lit "expires_in", VNum 86400);
        (lit "scopes", VArr [VStr [0xD800; 0x41]; VNull; VBool true])].

Definition network_ok : post_request N -> http_outcome N :=
  fun _ => HttpResponse 200 token.
Definition network_denied : post_request N -> http_outcome N :=
  fun _ => HttpResponse 401 (VObj [(lit "message", VStr (lit "invalid code"))]).

(** [GET /on_auth?code=abc&state=xyz] *)
Definition auth_with_code : auth_request N :=
  {| query := [(lit "code", VStr (lit "abc")); (lit "state", VStr (lit "xyz"))] |}.
(** [GET /on_auth?code=] *)
Definition auth_empty_code : auth_request N :=
  {| query := [(lit "code", VStr [])] |}.
(** [GET /on_auth?state=xyz] *)
Definition auth_no_code : auth_request N :=
  {| query := [(lit "state", VStr (lit "xyz"))] |}.

Definition stored_file : multer_file :=
  {| fieldname := lit "video"; originalname := lit "clip.mp4";
     path := lit "/tmp/uploads/5f2c" |}.

Definition storage : filesystem :=
  {| files := {[ lit "/tmp/uploads/5f2c" ]}; read_only := false |}.
Definition storage_read_only : filesystem :=
  {| files := {[ lit "/tmp/uploads/5f2c" ]}; read_only := true |}.
Definition storage_swept : filesystem :=
  {| files := ∅; read_only := false |}.

(** A file and no other field. *)
Definition upload_without_token : upload_request N :=
  {| file := Some stored_file; body := Some (VObj []) |}.
(** A file and [access_token=tok]. *)
Definition upload_with_token : upload_request N :=
  {| file := Some stored_file;
     body := Some (VObj [(lit "access_token", VStr (lit "tok"))]) |}.
(** A file and an [access_token] field left empty. *)
Definition upload_empty_token : upload_request N :=
  {| file := Some stored_file;
     body := Some (VObj [(lit "access_token", VStr [])]) |}.
(** Neither a file nor a field. *)
Definition upload_nothing : upload_request N :=
  {| file := None; body := None |}.

End Sample.

Module MoreSample.
Import Sample.

(** The same credentials and frontend, another redirect URI and port. *)
Definition env_other_port : process_env :=
  {| TIKTOK_CLIENT_KEY := Some (lit "awx1");
     TIKTOK_CLIENT_SECRET := Some (lit "s3cr3t");
     TIKTOK_REDIRECT_URI := None;
     ENV_PORT := Some (lit "8080");
     FRONTEND_URL := None |}.

(** [GET /on_auth?state=other&code=abc&lang=en] *)
Definition auth_other_state : auth_request N :=
  {| query := [(lit "state", VStr (lit "other"));
               (lit "code", VStr (lit "abc"));
               (lit "lang", VStr (lit "en"))] |}.

Definition network_down : post_request N -> http_outcome N :=
  fun _ => NetworkError (lit "connect ECONNREFUSED").

(** The same stored file under another name, with another token and one
    more field. *)
Definition upload_other_token : upload_request N :=
  {| file := Some {| fieldname := lit "video"; originalname := lit "holiday.mov";
                     path := lit "/tmp/uploads/5f2c" |};
     body := Some (VObj [(lit "title", VStr (lit "Holiday"));
                         (lit "access_token", VStr (lit "another"))]) |}.

End MoreSample.

(** * Properties *)

(** ** [encodeURIComponent] accepts whatever [JSON.stringify] prints *)

Module EncodeFacts.
Import URI JSON.

Lemma unreserved_ascii c : unreserved c = true -> c < 0x80.
Proof.
  unfold unreserved, is_alpha, is_digit, is_mark, existsb.
  intros Hc.
  repeat match type of Hc with
         | (_ || _)%bool = true => apply orb_prop in Hc; destruct Hc as [Hc|Hc]
         | (_ && _)%bool = true => apply andb_prop in Hc; destruct Hc as [? Hc]
         end;
    repeat match goal with
           | Hx : (_ <=? _) = true |- _ => apply N.leb_le in Hx
           | Hx : (_ =? _) = true |- _ => apply N.eqb_eq in Hx
           end; try lia; discriminate.
Qed.

Lemma below_surrogates c :
  c < 0xD800 -> is_high_surrogate c = false /\ is_low_surrogate c = false.
Proof.
  intros Hc. unfold is_high_surrogate, is_low_surrogate.
  split; apply andb_false_iff; left; apply N.leb_gt; lia.
Qed.

Lemma ascii_not_surrogate c :
  c < 0x80 -> is_high_surrogate c = false /\ is_low_surrogate c = false.
Proof. intros Hc. apply below_surrogates. lia. Qed.

Lemma high_not_low c : is_high_surrogate c = true -> is_low_surrogate c = false.
Proof.
  unfold is_high_surrogate, is_low_surrogate. intros Hc.
  apply andb_prop in Hc as [_ Hc]. apply N.leb_le in Hc.
  apply andb_false_iff; left. apply N.leb_gt. lia.
Qed.

Lemma surrogate_not_unreserved c :
  is_high_surrogate c = true \/ is_low_surrogate c = true -> unreserved c = false.
Proof.
  intros Hc. destruct (unreserved c) eqn:Hu; [|done].
  apply unreserved_ascii, ascii_not_surrogate in Hu as [Hh Hl].
  destruct Hc; congruence.
Qed.

Lemma fmap_Some_encodable (f : jsstring -> jsstring) r s :
  f <$> Encode s = Some r -> encodable s.
Proof. unfold encodable. destruct (Encode s); [by eexists|done]. Qed.

Lemma encodable_nil : encodable [].
Proof. by exists []. Qed.

(** One code unit that is no surrogate never stops the encoder. *)
Lemma encodable_cons c s :
  is_high_surrogate c = false -> is_low_surrogate c = false ->
  encodable s -> encodable (c :: s).
Proof.
  intros Hh Hl [r Hr]. unfold encodable. simpl.
  rewrite Hh, Hl, Hr. destruct (unreserved c); by eexists.
Qed.

(** A surrogate pair is consumed as one code point. *)
Lemma encodable_pair h l s :
  is_high_surrogate h = true -> is_low_surrogate l = true ->
  encodable s -> encodable (h :: l :: s).
Proof.
  intros Hh Hl [r Hr]. unfold encodable. simpl.
  rewrite (surrogate_not_unreserved h), (high_not_low h), Hh, Hl, Hr by auto.
  by eexists.
Qed.

(** A successful encoding never ends inside a pair, so encodable
    strings concatenate. *)
Lemma encodable_app a b : encodable a -> encodable b -> encodable (a ++ b).
Proof.
  intros Ha Hb. remember (length a) as n eqn:Hn.
  revert a Hn Ha. induction n as [n IH] using lt_wf_ind. intros a Hn Ha.
  destruct a as [|c t]; [done|].
  destruct Ha as [r Hr]. simpl in Hr.
  destruct (unreserved c) eqn:Hu.
  - apply unreserved_ascii, ascii_not_surrogate in Hu as [Hh Hl].
    apply (encodable_cons c (t ++ b)); [done..|].
    apply (IH (length t)); [simpl in Hn; lia|reflexivity|].
    by eapply fmap_Some_encodable.
  - destruct (is_low_surrogate c) eqn:Hl; [discriminate|].
    destruct (is_high_surrogate c) eqn:Hh.
    + destruct t as [|l t']; [discriminate|].
      destruct (is_low_surrogate l) eqn:Hl'; [|discriminate].
      apply (encodable_pair c l (t' ++ b)); [done..|].
      apply (IH (length t')); [simpl in Hn; lia|reflexivity|].
      by eapply fmap_Some_encodable.
    + apply (encodable_cons c (t ++ b)); [done..|].
      apply (IH (length t)); [simpl in Hn; lia|reflexivity|].
      by eapply fmap_Some_encodable.
Qed.

Lemma encodable_below_surrogates s :
  Forall (fun c => c < 0xD800) s -> encodable s.
Proof.
  induction 1 as [|c s Hc _ IH]; [apply encodable_nil|].
  apply below_surrogates in Hc as [Hh Hl]. by apply encodable_cons.
Qed.

Lemma encodable_ascii s : Forall (fun c => c < 0x80) s -> encodable s.
Proof.
  intros Hs. apply encodable_below_surrogates.
  eapply Forall_impl; [exact Hs|]. simpl. intros. lia.
Qed.

Lemma encodable_lit s : encodable (lit s).
Proof.
  apply encodable_below_surrogates. unfold lit.
  induction s as [|a s IH]; simpl; constructor; [|done].
  pose proof (N_ascii_bounded a). lia.
Qed.

Lemma encodable_join sep parts :
  encodable sep -> Forall encodable parts -> encodable (join sep parts).
Proof.
  intros Hsep. induction 1 as [|p rest Hp Hrest IH]; [apply encodable_nil|].
  destruct rest as [|q rest]; [done|].
  change (encodable (p ++ sep ++ join sep (q :: rest))).
  by repeat apply encodable_app.
Qed.

Lemma nibble_lt c i : nibble c i < 16.
Proof.
  unfold nibble. change 0xF with (N.ones 4). rewrite N.land_ones.
  apply N.mod_lt. done.
Qed.

Lemma hex_digit_ascii u d : d < 16 -> hex_digit u d < 0x80.
Proof.
  intros Hd. unfold hex_digit. destruct (d <? 10), u; lia.
Qed.

Lemma encodable_UnicodeEscape c : encodable (UnicodeEscape c).
Proof.
  apply encodable_ascii. unfold UnicodeEscape.
  repeat constructor; try lia; apply hex_digit_ascii, nibble_lt.
Qed.

Lemma encodable_quote_code_unit c :
  is_high_surrogate c = false -> is_low_surrogate c = false ->
  encodable (quote_code_unit c).
Proof.
  intros Hh Hl. unfold quote_code_unit.
  repeat match goal with
         | |- context [if ?b then _ else _] => destruct b
         end;
    try apply encodable_lit; try apply encodable_UnicodeEscape.
  - apply encodable_ascii. repeat constructor; lia.
  - apply encodable_cons; [done..|apply encodable_nil].
Qed.

Lemma encodable_quote_units s : encodable (quote_units s).
Proof.
  remember (length s) as n eqn:Hn.
  revert s Hn. induction n as [n IH] using lt_wf_ind. intros s Hn.
  destruct s as [|c t]; [apply encodable_nil|]. cbn [quote_units].
  assert (Ht : encodable (quote_units t)) by (apply (IH (length t)); [simpl in Hn; lia|reflexivity]).
  destruct (is_high_surrogate c) eqn:Hh.
  - destruct t as [|l t']; [apply encodable_UnicodeEscape|].
    destruct (is_low_surrogate l) eqn:Hl.
    + apply encodable_pair; [done..|].
      apply (IH (length t')); [simpl in Hn; lia|reflexivity].
    + apply encodable_app; [apply encodable_UnicodeEscape|done].
  - destruct (is_low_surrogate c) eqn:Hl.
    + apply encodable_app; [apply encodable_UnicodeEscape|done].
    + apply encodable_app; [by apply encodable_quote_code_unit|done].
Qed.

Lemma encodable_QuoteJSONString s : encodable (QuoteJSONString s).
Proof.
  unfold QuoteJSONString.
  repeat apply encodable_app; try apply encodable_quote_units;
    apply encodable_ascii; repeat constructor; lia.
Qed.

End EncodeFacts.

Section StringifyFacts.
Context {number : Type} `{JSNumber number}.
Import URI EncodeFacts.

(** [JSON.stringify] escapes every lone surrogate, so its output is
    well-formed UTF-16 and [encodeURIComponent] never throws on it. *)
Lemma encodable_JSON_stringify (v : value number) :
  encodable (JSON_stringify v).
Proof.
  induction v as [|b|n|s|elems IH|props IH] using value_nested_ind.
  - apply encodable_lit.
  - destruct b; apply encodable_lit.
  - simpl. destruct (Number_isFinite n); [|apply encodable_lit].
    apply encodable_ascii, Number_toString_ascii.
  - apply encodable_QuoteJSONString.
  - cbn [JSON_stringify].
    apply encodable_app; [apply encodable_lit|].
    apply encodable_app; [|apply encodable_lit].
    apply encodable_join; [apply encodable_lit|].
    induction IH; constructor; done.
  - cbn [JSON_stringify].
    apply encodable_app; [apply encodable_lit|].
    apply encodable_app; [|apply encodable_lit].
    apply encodable_join; [apply encodable_lit|].
    induction IH as [|[k x] rest Hx _ IHrest]; constructor; [|done].
    apply encodable_app; [apply encodable_QuoteJSONString|].
    apply encodable_app; [apply encodable_lit|exact Hx].
Qed.

Lemma encodeURIComponent_JSON_stringify (v : value number) fs :
  exists q, URI.Encode (JSON_stringify v) = Some q /\
            encodeURIComponent (number:=number) (JSON_stringify v) fs = (Normal q, fs, []).
Proof.
  destruct (encodable_JSON_stringify v) as [q Hq].
  exists q. split; [done|]. unfold encodeURIComponent. by rewrite Hq.
Qed.

End StringifyFacts.

(** ** The [/on_auth] handler *)

Section OnAuthFacts.
Context {number : Type} `{JSNumber number}.
Variable env : process_env.
Variable network : post_request number -> http_outcome number.

Implicit Types (req : auth_request number) (fs : filesystem) (P : value number).

Lemma frontend_spec :
  frontend env =
  match FRONTEND_URL env with
  | Some u => if bool_decide (u = []) then lit "/" else u
  | None => lit "/"
  end.
Proof.
  unfold frontend. destruct (FRONTEND_URL env) as [u|]; [|done].
  simpl. by destruct (bool_decide (u = [])).
Qed.

(** A falsy [code] stops the handler at its guard. *)
Lemma on_auth_falsy req fs :
  ToBoolean (get (query req) (lit "code")) = false ->
  on_auth_handler env network req fs = (Normal (Send 400 (lit "Missing code")), fs, []).
Proof. intros Hc. unfold on_auth_handler. by rewrite Hc. Qed.

Local Abbreviation code_of req := (get (query req) (lit "code")).

(** A truthy [code] and an accepted answer: the redirect. *)
Lemma on_auth_resolved req fs st P :
  ToBoolean (code_of req) = true ->
  network (token_request env (code_of req)) = HttpResponse st P ->
  validateStatus st = true ->
  exists q, URI.Encode (JSON_stringify P) = Some q /\
    on_auth_handler env network req fs =
      (Normal (Redirect 302 (frontend env ++ lit "?token=" ++ q)), fs,
       [HttpPost (token_request env (code_of req)) (HttpResponse st P)]).
Proof.
  intros Hc Hnet Hst.
  destruct (encodeURIComponent_JSON_stringify P fs) as (q & Hq & Henc).
  exists q. split; [done|].
  unfold on_auth_handler. rewrite Hc. simpl.
  unfold try_catch, on_auth_try, mbind, M_bind, bind, axios_post.
  fold (token_request env (code_of req)). rewrite Hnet, Hst. simpl.
  by rewrite Henc.
Qed.

(** A truthy [code] and a failed call: the catch block. *)
Lemma on_auth_rejected req fs :
  ToBoolean (code_of req) = true ->
  failed (network (token_request env (code_of req))) ->
  exists detail,
    on_auth_handler env network req fs =
      (Normal (Send 500 (lit "Token exchange failed")), fs,
       [HttpPost (token_request env (code_of req))
                 (network (token_request env (code_of req)));
        ConsoleError [LogValue (Some (VStr (lit "Error exchanging token")));
                      LogValue (Some detail)]]).
Proof.
  intros Hc Hfail.
  unfold on_auth_handler. rewrite Hc. simpl.
  unfold try_catch, on_auth_try, mbind, M_bind, bind, axios_post.
  fold (token_request env (code_of req)).
  destruct (network (token_request env (code_of req))) as [msg|st d]; simpl in *.
  - by eexists.
  - rewrite Hfail. simpl. by eexists.
Qed.

(** An answer either passes [validateStatus] or counts as failed. *)
Lemma outcome_cases (o : http_outcome number) :
  (exists st P, o = HttpResponse st P /\ validateStatus st = true) \/ failed o.
Proof.
  destruct o as [msg|st P]; [by right|].
  destruct (validateStatus st) eqn:Hst; [left; by eauto|by right].
Qed.

(** The outbound calls of a run: one for a truthy [code], none otherwise. *)
Lemma on_auth_posts req fs :
  posts (events (on_auth_handler env network req fs)) =
  if ToBoolean (code_of req)
  then [(token_request env (code_of req),
         network (token_request env (code_of req)))]
  else [].
Proof.
  destruct (ToBoolean (code_of req)) eqn:Hc.
  - destruct (outcome_cases (network (token_request env (code_of req))))
      as [(st & P & Hnet & Hst)|Hfail].
    + destruct (on_auth_resolved req fs st P Hc Hnet Hst) as (q & _ & Hq).
      rewrite Hq, Hnet. done.
    + destruct (on_auth_rejected req fs Hc Hfail) as [d Hd].
      rewrite Hd. done.
  - by rewrite on_auth_falsy.
Qed.

(** C1. For every request to [/on_auth] that carries a [code] query
    parameter, when the call to the token endpoint succeeds with payload
    [P], the handler answers with a 302 redirect whose location is the
    configured frontend base URL (["/"] when [FRONTEND_URL] is unset or
    empty), then ["?token="], then [encodeURIComponent(JSON.stringify(P))]:
    the location depends on [P] through its serialization only, and the
    encoder accepts that serialization whatever [P] is. *)
Theorem on_auth_success_redirect req fs r st P :
  is_Some (code_of req) ->
  (r, HttpResponse st P) ∈ posts (events (on_auth_handler env network req fs)) ->
  validateStatus st = true ->
  exists q,
    URI.Encode (JSON_stringify P) = Some q /\
    result (on_auth_handler env network req fs) =
      Normal (Redirect 302
                (match FRONTEND_URL env with
                 | Some u => if bool_decide (u = []) then lit "/" else u
                 | None => lit "/"
                 end ++ lit "?token=" ++ q)).
Proof.
  intros _ Hin Hst. rewrite on_auth_posts in Hin.
  destruct (ToBoolean (code_of req)) eqn:Hc; [|by apply elem_of_nil in Hin].
  apply list_elem_of_singleton in Hin. injection Hin as -> Hnet.
  symmetry in Hnet.
  destruct (on_auth_resolved req fs st P Hc Hnet Hst) as (q & Hq & Hrun).
  exists q. split; [done|]. by rewrite Hrun, frontend_spec.
Qed.

(** C2, amended. For every request to [/on_auth] whose [code] is
    non-empty (truthy), the handler issues exactly one outbound POST, to
    the platform token endpoint, with no request body and with
    [client_key], [client_secret], the incoming [code] as received and
    [grant_type = 'authorization_code'] as URL query parameters. *)
Theorem on_auth_one_post req fs :
  ToBoolean (code_of req) = true ->
  exists o,
    posts (events (on_auth_handler env network req fs)) =
      [({| post_url := lit "https://open-api.tiktok.com/oauth/access_token/";
           post_data := None;
           post_params :=
             [(lit "client_key", VStr <$> TIKTOK_CLIENT_KEY env);
              (lit "client_secret", VStr <$> TIKTOK_CLIENT_SECRET env);
              (lit "code", code_of req);
              (lit "grant_type", Some (VStr (lit "authorization_code")))] |},
        o)].
Proof.
  intros Hc. rewrite on_auth_posts, Hc. by eexists.
Qed.

(** C5. For every request to [/on_auth] whose query lacks the [code]
    parameter, the handler answers 400 with the plain text
    ["Missing code"] and makes no outbound call. *)
Theorem on_auth_missing_code req fs :
  code_of req = None ->
  result (on_auth_handler env network req fs) = Normal (Send 400 (lit "Missing code")) /\
  posts (events (on_auth_handler env network req fs)) = [].
Proof.
  intros Hc. rewrite on_auth_falsy; [done|]. by rewrite Hc.
Qed.

(** C6. For every request to [/on_auth] that carries a [code], if the
    call to the token endpoint fails (no answer, or an answer whose
    status axios rejects), the handler answers 500 with the fixed text
    ["Token exchange failed"], which does not depend on the upstream
    error, and the run holds exactly that one outbound attempt. *)
Theorem on_auth_failure_500 req fs r o :
  is_Some (code_of req) ->
  (r, o) ∈ posts (events (on_auth_handler env network req fs)) ->
  failed o ->
  result (on_auth_handler env network req fs) =
    Normal (Send 500 (lit "Token exchange failed")) /\
  posts (events (on_auth_handler env network req fs)) = [(r, o)].
Proof.
  intros _ Hin Hfail. pose proof (on_auth_posts req fs) as Hposts.
  rewrite Hposts in Hin |- *.
  destruct (ToBoolean (code_of req)) eqn:Hc; [|by apply elem_of_nil in Hin].
  apply list_elem_of_singleton in Hin. injection Hin as -> ->.
  split; [|done].
  destruct (on_auth_rejected req fs Hc Hfail) as [d Hd]. by rewrite Hd.
Qed.

End OnAuthFacts.

(** ** The [/upload] handler *)

Section UploadFacts.
Context {number : Type} `{JSNumber number}.

Implicit Types (req : upload_request number) (fs : filesystem) (f : multer_file).

(** multer leaves the accepted file in storage. *)
Lemma upload_single_stored original filename fs :
  path (upload_single original filename fs).1 ∈
    files (upload_single original filename fs).2.
Proof. unfold upload_single. simpl. set_solver. Qed.

(** On a writable volume multer hands the handler a file it can remove. *)
Lemma upload_single_writable original filename fs :
  read_only fs = false -> read_only (upload_single original filename fs).2 = false.
Proof. done. Qed.

(** For strings, truthy means non-empty; arrays and objects are truthy. *)
Lemma ToBoolean_string (s : jsstring) :
  ToBoolean (number:=number) (Some (VStr s)) = true <-> s <> [].
Proof.
  simpl. destruct (bool_decide (s = [])) eqn:Hs; simpl.
  - apply bool_decide_eq_true in Hs. split; [done|]. intros Hne. by destruct Hne.
  - apply bool_decide_eq_false in Hs. done.
Qed.

Lemma unlinkSync_removes p fs :
  p ∈ files fs -> read_only fs = false ->
  unlinkSync (number:=number) p fs =
    (Normal tt, {| files := files fs ∖ {[ p ]}; read_only := false |},
     [UnlinkSync p]).
Proof.
  intros Hin Hrw. unfold unlinkSync.
  rewrite (bool_decide_eq_true_2 _ Hin), Hrw. done.
Qed.

(** A failed removal changes nothing. *)
Lemma unlinkSync_throws p fs e :
  result (unlinkSync (number:=number) p fs) = Throw e ->
  unlinkSync (number:=number) p fs = (Throw e, fs, [UnlinkSync p]).
Proof.
  unfold unlinkSync.
  destruct (bool_decide (p ∈ files fs)); [destruct (read_only fs)|];
    simpl; intros He; by inversion He.
Qed.

Lemma upload_no_file req fs :
  file req = None ->
  upload_handler req fs = (Normal (Json 400 no_file_body), fs, []).
Proof. intros Hf. unfold upload_handler, try_catch, upload_try. by rewrite Hf. Qed.

(** The demo path, when the removal succeeds. *)
Lemma upload_demo_run req fs f :
  file req = Some f -> ToBoolean (accessToken req) = false ->
  path f ∈ files fs -> read_only fs = false ->
  upload_handler req fs =
    (Normal (Json 200 demo_body),
     {| files := files fs ∖ {[ path f ]}; read_only := false |},
     [ConsoleLog [LogValue (Some (VStr demo_log))]; UnlinkSync (path f)]).
Proof.
  intros Hf Ht Hin Hrw. unfold upload_handler, try_catch, upload_try.
  rewrite Hf, Ht. simpl. unfold mbind, M_bind, bind. simpl.
  by rewrite (unlinkSync_removes _ _ Hin Hrw).
Qed.

(** The path with a token, when the removal succeeds. *)
Lemma upload_received_run req fs f :
  file req = Some f -> ToBoolean (accessToken req) = true ->
  path f ∈ files fs -> read_only fs = false ->
  upload_handler req fs =
    (Normal (Json 200 received_body),
     {| files := files fs ∖ {[ path f ]}; read_only := false |},
     [UnlinkSync (path f)]).
Proof.
  intros Hf Ht Hin Hrw. unfold upload_handler, try_catch, upload_try.
  rewrite Hf, Ht. simpl. unfold mbind, M_bind, bind.
  by rewrite (unlinkSync_removes _ _ Hin Hrw).
Qed.

(** The [try] block throws only out of [fs.unlinkSync], and then it has
    changed nothing. *)
Lemma upload_try_throws req fs e :
  result (upload_try req fs) = Throw e ->
  exists f, file req = Some f /\
    result (unlinkSync (number:=number) (path f) fs) = Throw e /\
    final_fs (upload_try req fs) = fs /\
    (path f ∈ files fs -> read_only fs = true).
Proof.
  unfold upload_try. destruct (file req) as [f|]; [|done].
  intros He. exists f. split; [done|].
  assert (Hu : result (unlinkSync (number:=number) (path f) fs) = Throw e).
  { destruct (ToBoolean (accessToken req)); simpl in He;
      unfold mbind, M_bind, bind in He; simpl in He;
      destruct (unlinkSync (path f) fs) as [[[[]|e'] fs'] evs]; simpl in *;
      by inversion He. }
  split; [done|]. split.
  - apply unlinkSync_throws in Hu.
    destruct (ToBoolean (accessToken req)); simpl;
      unfold mbind, M_bind, bind; simpl; by rewrite Hu.
  - intros Hin. destruct (read_only fs) eqn:Hrw; [done|].
    by rewrite (unlinkSync_removes _ _ Hin Hrw) in Hu.
Qed.

(** The [catch] block touches no file. *)
Lemma upload_catch_run err fs :
  upload_catch (number:=number) err fs =
    (Normal (Json 500 (VObj [(lit "ok", VBool false);
                             (lit "error", VStr (message err))])),
     fs, [ConsoleError [LogError err]]).
Proof. done. Qed.

Lemma upload_caught req fs e :
  result (upload_try req fs) = Throw e ->
  result (upload_handler req fs) =
    Normal (Json 500 (VObj [(lit "ok", VBool false);
                            (lit "error", VStr (message e))])) /\
  final_fs (upload_handler req fs) = fs.
Proof.
  intros He. destruct (upload_try_throws req fs e He) as (f & _ & _ & Hfs & _).
  unfold upload_handler, try_catch.
  unfold result, final_fs in *.
  destruct (upload_try req fs) as [[[r|e'] fs'] evs]; simpl in *; [done|].
  injection He as ->. by subst fs'.
Qed.

(** C3. For every request to [/upload] that holds a file and no
    [access_token] field in its body, the file being in temporary
    storage on a writable volume: the handler deletes the temporary
    file, makes no external call, and answers 200 with the JSON body
    [{ok: true, demo: true, message}]; the file is gone afterwards. *)
Theorem upload_demo req fs f :
  file req = Some f -> accessToken req = None ->
  path f ∈ files fs -> read_only fs = false ->
  result (upload_handler req fs) =
    Normal (Json 200
              (VObj [(lit "ok", VBool true);
                     (lit "demo", VBool true);
                     (lit "message",
                      VStr (lit "Demo upload accepted (no TikTok call)"))])) /\
  unlinks (events (upload_handler req fs)) = [path f] /\
  posts (events (upload_handler req fs)) = [] /\
  path f ∉ files (final_fs (upload_handler req fs)).
Proof.
  intros Hf Ht Hin Hrw.
  rewrite (upload_demo_run req fs f Hf); [|by rewrite Ht|done..].
  repeat split; try done. unfold final_fs. simpl.
  intros [_ Hne]%elem_of_difference. apply Hne. by apply elem_of_singleton.
Qed.

(** C4, amended. For every request to [/upload] that holds a file and a
    non-empty (truthy) [access_token], the file being in temporary
    storage on a writable volume: the handler deletes the temporary
    file, makes no external call, and answers 200 with the JSON body
    [{ok: true, message}] of the "received" message, without a [demo]
    field; the file is gone afterwards. *)
Theorem upload_received req fs f :
  file req = Some f -> ToBoolean (accessToken req) = true ->
  path f ∈ files fs -> read_only fs = false ->
  exists body,
    result (upload_handler req fs) = Normal (Json 200 body) /\
    body = VObj [(lit "ok", VBool true);
                 (lit "message",
                  VStr (lit "File received. In production this would be uploaded to TikTok (demo mode)."))] /\
    prop body (lit "demo") = None /\
    unlinks (events (upload_handler req fs)) = [path f] /\
    posts (events (upload_handler req fs)) = [] /\
    path f ∉ files (final_fs (upload_handler req fs)).
Proof.
  intros Hf Ht Hin Hrw. exists received_body.
  rewrite (upload_received_run req fs f Hf Ht Hin Hrw).
  repeat split; try done. unfold final_fs. simpl.
  intros [_ Hne]%elem_of_difference. apply Hne. by apply elem_of_singleton.
Qed.

(** C7. For every request to [/upload] without a file, the handler
    answers 400 with the JSON body
    [{ok: false, message: "No file uploaded"}], exactly. *)
Theorem upload_no_file_400 req fs :
  file req = None ->
  result (upload_handler req fs) =
    Normal (Json 400 (VObj [(lit "ok", VBool false);
                            (lit "message", VStr (lit "No file uploaded"))])).
Proof. intros Hf. by rewrite upload_no_file. Qed.

(** C8. For every request to [/upload] in which file handling raises an
    exception [e], the exception is caught: the handler completes
    normally and answers 500 with the JSON body
    [{ok: false, error: e.message}], which hands the message of the
    exception to the caller. *)
Theorem upload_exception_500 req fs e :
  result (upload_try req fs) = Throw e ->
  result (upload_handler req fs) =
    Normal (Json 500 (VObj [(lit "ok", VBool false);
                            (lit "error", VStr (message e))])).
Proof. intros He. by apply upload_caught. Qed.

(** C9. For every request to [/upload] whose file is in temporary
    storage, if an exception leaves the [try] block, the handler answers
    500 and the temporary file is still there: the filesystem is as it
    was on entry, and the [catch] block, whatever the exception and the
    state it runs in, removes nothing. *)
Theorem upload_error_keeps_file req fs f e :
  file req = Some f -> path f ∈ files fs ->
  result (upload_try req fs) = Throw e ->
  (exists resp, result (upload_handler req fs) = Normal resp /\ status_of resp = 500) /\
  path f ∈ files (final_fs (upload_handler req fs)) /\
  final_fs (upload_handler req fs) = fs /\
  (forall err fs', final_fs (upload_catch (number:=number) err fs') = fs' /\
                   unlinks (events (upload_catch (number:=number) err fs')) = []).
Proof.
  intros Hf Hin He. destruct (upload_caught req fs e He) as [Hr Hfs].
  split; [by eexists|]. split; [by rewrite Hfs|]. split; [done|].
  intros err fs'. by rewrite upload_catch_run.
Qed.

(** C10. The [/upload] handler checks for the file before it looks at the
    token: for every request with neither a file nor an [access_token],
    the answer is the 400 no-file error, not the 200 demo answer, and no
    deletion is attempted. *)
Theorem upload_file_checked_first req fs :
  file req = None -> accessToken req = None ->
  result (upload_handler req fs) =
    Normal (Json 400 (VObj [(lit "ok", VBool false);
                            (lit "message", VStr (lit "No file uploaded"))])) /\
  unlinks (events (upload_handler req fs)) = [] /\
  final_fs (upload_handler req fs) = fs.
Proof. intros Hf _. by rewrite upload_no_file. Qed.

End UploadFacts.

(** ** The handlers on concrete requests *)

Module Runs.
Import Sample.

Lemma stored_file_in_storage : path stored_file ∈ files storage.
Proof.
  change (lit "/tmp/uploads/5f2c" ∈ ({[ lit "/tmp/uploads/5f2c" ]} : gset jsstring)).
  by apply elem_of_singleton_2.
Defined.

Lemma on_auth_success_redirect_witness :
  exists q,
    URI.Encode (JSON_stringify token) = Some q /\
    result (on_auth_handler env network_ok auth_with_code storage) =
      Normal (Redirect 302 (lit "/" ++ lit "?token=" ++ q)).
Proof.
  apply (on_auth_success_redirect env network_ok auth_with_code storage
           (token_request env (Some (VStr (lit "abc")))) 200 token).
  - by eexists.
  - vm_compute. constructor.
  - reflexivity.
Defined.

(** The redirect of that run, spelled out. *)
Example on_auth_success_location :
  result (on_auth_handler env network_ok auth_with_code storage) =
    Normal (Redirect 302
      (lit "/?token=%7B%22access_token%22%3A%22act.1%202%2F3%22%2C%22expires_in%22%3A86400%2C%22scopes%22%3A%5B%22%5Cud800A%22%2Cnull%2Ctrue%5D%7D")).
Proof. vm_compute. reflexivity. Qed.

(** C2 as stated fails: [GET /on_auth?code=] carries a [code] parameter,
    yet the handler answers 400 and makes no outbound call. *)
Lemma on_auth_empty_code_no_post :
  is_Some (get (query auth_empty_code) (lit "code")) /\
  result (on_auth_handler env network_ok auth_empty_code storage) =
    Normal (Send 400 (lit "Missing code")) /\
  posts (events (on_auth_handler env network_ok auth_empty_code storage)) = [].
Proof. split; [by eexists|]. split; reflexivity. Qed.

Lemma on_auth_one_post_witness :
  exists o,
    posts (events (on_auth_handler env network_ok auth_with_code storage)) =
      [({| post_url := lit "https://open-api.tiktok.com/oauth/access_token/";
           post_data := None;
           post_params :=
             [(lit "client_key", Some (VStr (lit "awx1")));
              (lit "client_secret", Some (VStr (lit "s3cr3t")));
              (lit "code", Some (VStr (lit "abc")));
              (lit "grant_type", Some (VStr (lit "authorization_code")))] |},
        o)].
Proof.
  apply (on_auth_one_post env network_ok auth_with_code storage).
  reflexivity.
Defined.

Lemma on_auth_missing_code_witness :
  result (on_auth_handler env network_ok auth_no_code storage) =
    Normal (Send 400 (lit "Missing code")) /\
  posts (events (on_auth_handler env network_ok auth_no_code storage)) = [].
Proof.
  apply (on_auth_missing_code env network_ok auth_no_code storage).
  reflexivity.
Defined.

Lemma on_auth_failure_500_witness :
  result (on_auth_handler env network_denied auth_with_code storage) =
    Normal (Send 500 (lit "Token exchange failed")) /\
  posts (events (on_auth_handler env network_denied auth_with_code storage)) =
    [(token_request env (Some (VStr (lit "abc"))),
      network_denied (token_request env (Some (VStr (lit "abc")))))].
Proof.
  apply (on_auth_failure_500 env network_denied auth_with_code storage).
  - by eexists.
  - vm_compute. constructor.
  - reflexivity.
Defined.

Lemma upload_demo_witness :
  result (upload_handler upload_without_token storage) =
    Normal (Json 200
              (VObj [(lit "ok", VBool true);
                     (lit "demo", VBool true);
                     (lit "message",
                      VStr (lit "Demo upload accepted (no TikTok call)"))])) /\
  unlinks (events (upload_handler upload_without_token storage)) = [path stored_file] /\
  posts (events (upload_handler upload_without_token storage)) = [] /\
  path stored_file ∉ files (final_fs (upload_handler upload_without_token storage)).
Proof.
  apply (upload_demo upload_without_token storage stored_file).
  - reflexivity.
  - reflexivity.
  - exact stored_file_in_storage.
  - reflexivity.
Defined.

(** C4 as stated fails: a request with a file and an [access_token] field
    that is empty gets the demo answer, with [demo: true]. *)
Lemma upload_empty_token_demo :
  file upload_empty_token = Some stored_file /\
  is_Some (accessToken upload_empty_token) /\
  path stored_file ∈ files storage /\
  exists body,
    result (upload_handler upload_empty_token storage) = Normal (Json 200 body) /\
    prop body (lit "demo") = Some (VBool true).
Proof.
  split; [reflexivity|]. split; [by eexists|].
  split; [exact stored_file_in_storage|].
  exists demo_body. split; [|reflexivity].
  rewrite (upload_demo_run upload_empty_token storage stored_file);
    [reflexivity..|exact stored_file_in_storage|reflexivity].
Qed.

Lemma upload_received_witness :
  exists body,
    result (upload_handler upload_with_token storage) = Normal (Json 200 body) /\
    body = VObj [(lit "ok", VBool true);
                 (lit "message",
                  VStr (lit "File received. In production this would be uploaded to TikTok (demo mode)."))] /\
    prop body (lit "demo") = None /\
    unlinks (events (upload_handler upload_with_token storage)) = [path stored_file] /\
    posts (events (upload_handler upload_with_token storage)) = [] /\
    path stored_file ∉ files (final_fs (upload_handler upload_with_token storage)).
Proof.
  apply (upload_received upload_with_token storage stored_file).
  - reflexivity.
  - reflexivity.
  - exact stored_file_in_storage.
  - reflexivity.
Defined.

Lemma upload_no_file_400_witness :
  result (upload_handler upload_nothing storage) =
    Normal (Json 400 (VObj [(lit "ok", VBool false);
                            (lit "message", VStr (lit "No file uploaded"))])).
Proof. apply (upload_no_file_400 upload_nothing storage). reflexivity. Defined.

(** The temporary file was swept away before the handler ran. *)
Lemma upload_exception_500_witness :
  result (upload_handler upload_without_token storage_swept) =
    Normal (Json 500
              (VObj [(lit "ok", VBool false);
                     (lit "error",
                      VStr (lit "ENOENT: no such file or directory, unlink '/tmp/uploads/5f2c'"))])).
Proof.
  apply (upload_exception_500 upload_without_token storage_swept
           {| message := lit "ENOENT: no such file or directory, unlink '/tmp/uploads/5f2c'";
              response := None |}).
  reflexivity.
Defined.

(** The volume turned read-only after multer stored the file. *)
Lemma upload_error_keeps_file_witness :
  (exists resp, result (upload_handler upload_with_token storage_read_only) = Normal resp /\
                status_of resp = 500) /\
  path stored_file ∈ files (final_fs (upload_handler upload_with_token storage_read_only)) /\
  final_fs (upload_handler upload_with_token storage_read_only) = storage_read_only /\
  (forall err fs', final_fs (upload_catch (number:=N) err fs') = fs' /\
                   unlinks (events (upload_catch (number:=N) err fs')) = []).
Proof.
  apply (upload_error_keeps_file upload_with_token storage_read_only stored_file
           {| message := lit "EROFS: read-only file system, unlink '/tmp/uploads/5f2c'";
              response := None |}).
  - reflexivity.
  - exact stored_file_in_storage.
  - reflexivity.
Defined.

Lemma upload_file_checked_first_witness :
  result (upload_handler upload_nothing storage) =
    Normal (Json 400 (VObj [(lit "ok", VBool false);
                            (lit "message", VStr (lit "No file uploaded"))])) /\
  unlinks (events (upload_handler upload_nothing storage)) = [] /\
  final_fs (upload_handler upload_nothing storage) = storage.
Proof.
  apply (upload_file_checked_first upload_nothing storage); reflexivity.
Defined.

End Runs.

(** * Further properties of the handlers *)

(** ** What the encoder emits *)

Module UrlSafeFacts.
Import URI EncodeFacts.

Lemma hex_digit_upper_unreserved d : d < 16 -> unreserved (hex_digit true d) = true.
Proof.
  intros Hd.
  assert (Hcases : d = 0 \/ d = 1 \/ d = 2 \/ d = 3 \/ d = 4 \/ d = 5 \/ d = 6 \/
                   d = 7 \/ d = 8 \/ d = 9 \/ d = 10 \/ d = 11 \/ d = 12 \/
                   d = 13 \/ d = 14 \/ d = 15) by lia.
  repeat (destruct Hcases as [->|Hcases]; [reflexivity|]).
  by subst d.
Qed.

Lemma url_safe_percent octet : Forall (fun c => url_safe c = true) (percent octet).
Proof.
  assert (Hhex : forall i, url_safe (hex_digit true (nibble octet i)) = true).
  { intros i. unfold url_safe.
    by rewrite hex_digit_upper_unreserved by apply nibble_lt. }
  unfold percent.
  constructor; [reflexivity|]. constructor; [apply Hhex|].
  constructor; [apply Hhex|constructor].
Qed.

Lemma url_safe_escape cp : Forall (fun c => url_safe c = true) (escape_code_point cp).
Proof.
  unfold escape_code_point. apply Forall_concat, Forall_forall.
  intros x Hx. apply list_elem_of_In, in_map_iff in Hx as (o & <- & _).
  apply url_safe_percent.
Qed.

(** Whatever [Encode] returns holds unreserved characters and percent
    signs only. *)
Lemma Encode_url_safe s q :
  Encode s = Some q -> Forall (fun c => url_safe c = true) q.
Proof.
  remember (length s) as n eqn:Hn.
  revert s q Hn. induction n as [n IH] using lt_wf_ind. intros s q Hn Hq.
  destruct s as [|c t]; [by injection Hq as <-|].
  simpl in Hq. destruct (unreserved c) eqn:Hu.
  - apply fmap_Some in Hq as (q' & Hq' & ->).
    constructor; [unfold url_safe; by rewrite Hu|].
    apply (IH (length t)) with t; [simpl in Hn; lia|reflexivity|done].
  - destruct (is_low_surrogate c); [done|].
    destruct (is_high_surrogate c).
    + destruct t as [|l t']; [done|].
      destruct (is_low_surrogate l); [|done].
      apply fmap_Some in Hq as (q' & Hq' & ->).
      apply Forall_app. split; [apply url_safe_escape|].
      apply (IH (length t')) with t'; [simpl in Hn; lia|reflexivity|done].
    + apply fmap_Some in Hq as (q' & Hq' & ->).
      apply Forall_app. split; [apply url_safe_escape|].
      apply (IH (length t)) with t; [simpl in Hn; lia|reflexivity|done].
Qed.

End UrlSafeFacts.

(** ** More on the [/on_auth] handler *)

Section OnAuthRuns.
Context {number : Type} `{JSNumber number}.

Implicit Types (env : process_env) (req : auth_request number) (fs : filesystem).

Local Abbreviation code_of req := (get (query req) (lit "code")).

(** The three ways a run of the handler can go. *)
Lemma on_auth_cases env network req fs :
  let r := token_request env (code_of req) in
  (ToBoolean (code_of req) = false /\
   on_auth_handler env network req fs =
     (Normal (Send 400 (lit "Missing code")), fs, [])) \/
  (ToBoolean (code_of req) = true /\
   exists st P q,
     network r = HttpResponse st P /\ validateStatus st = true /\
     URI.Encode (JSON_stringify P) = Some q /\
     on_auth_handler env network req fs =
       (Normal (Redirect 302 (frontend env ++ lit "?token=" ++ q)), fs,
        [HttpPost r (HttpResponse st P)])) \/
  (ToBoolean (code_of req) = true /\ failed (network r) /\
   on_auth_handler env network req fs =
     (Normal (Send 500 (lit "Token exchange failed")), fs,
      [HttpPost r (network r);
       ConsoleError [LogValue (Some (VStr (lit "Error exchanging token")));
                     LogValue (Some (logged_detail (network r)))]])).
Proof.
  intros r. destruct (ToBoolean (code_of req)) eqn:Hc.
  - right. destruct (outcome_cases (network r)) as [(st & P & Hnet & Hst)|Hfail].
    + left. split; [done|].
      destruct (on_auth_resolved env network req fs st P Hc Hnet Hst) as (q & Hq & Hrun).
      by exists st, P, q.
    + right. split; [done|]. split; [done|].
      unfold on_auth_handler. rewrite Hc. simpl.
      unfold try_catch, on_auth_try, mbind, M_bind, bind, axios_post.
      fold (token_request env (code_of req)). fold r.
      destruct (network r) as [msg|st d]; simpl in *; [done|].
      by rewrite Hfail.
  - left. split; [done|]. by apply on_auth_falsy.
Qed.


(** X2. The handler leaves the filesystem alone: no file is removed or added,
    and no removal is attempted. *)
Theorem on_auth_filesystem_untouched env network req fs :
  final_fs (on_auth_handler env network req fs) = fs /\
  unlinks (events (on_auth_handler env network req fs)) = [].
Proof.
  destruct (on_auth_cases env network req fs)
    as [[_ Hrun]|[(_ & st & P & q & _ & _ & _ & Hrun)|(_ & _ & Hrun)]];
    by rewrite Hrun.
Qed.

(** X3. When the token call fails, the run is the call followed by one
    [console.error] that carries the upstream detail: the body of the
    response when the platform answered, the message of the error when it
    did not. The detail goes nowhere else. *)
Theorem on_auth_failure_logged env network req fs :
  ToBoolean (code_of req) = true ->
  failed (network (token_request env (code_of req))) ->
  events (on_auth_handler env network req fs) =
    [HttpPost (token_request env (code_of req))
              (network (token_request env (code_of req)));
     ConsoleError
       [LogValue (Some (VStr (lit "Error exchanging token")));
        LogValue (Some (logged_detail (network (token_request env (code_of req)))))]] /\
  result (on_auth_handler env network req fs) =
    Normal (Send 500 (lit "Token exchange failed")).
Proof.
  intros Hc Hfail.
  destruct (on_auth_cases env network req fs)
    as [[Hc' _]|[(_ & st & P & q & Hnet & Hst & _ & _)|(_ & _ & Hrun)]].
  - congruence.
  - rewrite Hnet in Hfail. simpl in Hfail. congruence.
  - by rewrite Hrun.
Qed.

(** X4. The handler reads [code] from the query and the client key, client
    secret and frontend URL from the environment, nothing else: [state],
    any other query parameter, the redirect URI and the port have no
    effect on the run. *)
Theorem on_auth_reads_only env1 env2 network req1 req2 fs :
  TIKTOK_CLIENT_KEY env1 = TIKTOK_CLIENT_KEY env2 ->
  TIKTOK_CLIENT_SECRET env1 = TIKTOK_CLIENT_SECRET env2 ->
  FRONTEND_URL env1 = FRONTEND_URL env2 ->
  code_of req1 = code_of req2 ->
  on_auth_handler env1 network req1 fs = on_auth_handler env2 network req2 fs.
Proof.
  intros Hkey Hsecret Hfront Hcode.
  unfold on_auth_handler, on_auth_try, token_params, frontend,
    CLIENT_KEY, CLIENT_SECRET.
  by rewrite Hkey, Hsecret, Hfront, Hcode.
Qed.

(** X5. Every redirect the handler issues is a 302 to the frontend URL
    followed by [?token=] and a value made of unreserved characters and
    percent signs only, whatever the payload was. *)
Theorem redirect_location_shape env network req fs st loc :
  result (on_auth_handler env network req fs) = Normal (Redirect st loc) ->
  st = 302 /\
  exists q, loc = frontend env ++ lit "?token=" ++ q /\
            Forall (fun c => url_safe c = true) q.
Proof.
  intros Hres.
  destruct (on_auth_cases env network req fs)
    as [[_ Hrun]|[(_ & st' & P & q & _ & _ & Hq & Hrun)|(_ & _ & Hrun)]];
    rewrite Hrun in Hres; unfold result in Hres; simpl in Hres; try done.
  injection Hres as <- <-. split; [done|].
  exists q. split; [done|]. by apply UrlSafeFacts.Encode_url_safe in Hq.
Qed.

End OnAuthRuns.

(** ** More on the [/upload] handler *)

Section UploadRuns.
Context {number : Type} {number_ops : JSNumber number}.

Implicit Types (req : upload_request number) (fs : filesystem) (f : multer_file).

(** The removal either succeeds or throws and leaves everything in place. *)
Lemma unlinkSync_cases p fs :
  (p ∈ files fs /\ read_only fs = false /\
   unlinkSync (number:=number) p fs =
     (Normal tt, {| files := files fs ∖ {[ p ]}; read_only := false |},
      [UnlinkSync p])) \/
  (exists e,
     unlinkSync (number:=number) p fs = (Throw e, fs, [UnlinkSync p]) /\
     (((p ∉ files fs) /\
       message e = (lit "ENOENT: no such file or directory, unlink '" ++ p ++ lit "'")) \/
      (p ∈ files fs /\ read_only fs = true /\
       message e = (lit "EROFS: read-only file system, unlink '" ++ p ++ lit "'")))).
Proof.
  destruct (decide (p ∈ files fs)) as [Hin|Hout].
  - destruct (read_only fs) eqn:Hro.
    + right. eexists. split.
      * unfold unlinkSync. by rewrite (bool_decide_eq_true_2 _ Hin), Hro.
      * right. by simpl.
    + left. split; [done|]. split; [done|]. by apply unlinkSync_removes.
  - right. eexists. split.
    + unfold unlinkSync. by rewrite (bool_decide_eq_false_2 _ Hout).
    + left. by simpl.
Qed.

(** The runs of the handler for a request that holds a file. *)
Lemma upload_with_file_cases req fs f :
  file req = Some f ->
  let greeting :=
    if ToBoolean (accessToken req) then []
    else [ConsoleLog (number:=number) [LogValue (Some (VStr demo_log))]] in
  (path f ∈ files fs /\ read_only fs = false /\
   upload_handler req fs =
     (Normal (Json 200 (if ToBoolean (accessToken req)
                        then received_body else demo_body)),
      {| files := files fs ∖ {[ path f ]}; read_only := false |},
      greeting ++ [UnlinkSync (path f)])) \/
  (exists e,
     unlinkSync (number:=number) (path f) fs = (Throw e, fs, [UnlinkSync (path f)]) /\
     upload_handler req fs =
       (Normal (Json 500 (VObj [(lit "ok", VBool false);
                                (lit "error", VStr (message e))])),
        fs,
        greeting ++ [UnlinkSync (path f); ConsoleError [LogError e]])).
Proof.
  intros Hf greeting. subst greeting.
  destruct (unlinkSync_cases (path f) fs) as [(Hin & Hro & Hun)|(e & Hun & _)].
  - left. split; [done|]. split; [done|].
    destruct (ToBoolean (accessToken req)) eqn:Ht.
    + by apply upload_received_run.
    + by apply upload_demo_run.
  - right. exists e. split; [done|].
    unfold upload_handler, try_catch, upload_try. rewrite Hf.
    destruct (ToBoolean (accessToken req)); simpl;
      unfold mbind, M_bind, bind; simpl; by rewrite Hun.
Qed.

(** X6. The handler always answers and never throws; it never calls the
    network; it attempts one removal, of the uploaded file, when the
    request holds a file, and none otherwise. *)
Theorem upload_always_responds req fs :
  exists resp,
    result (upload_handler req fs) = Normal resp /\
    posts (events (upload_handler req fs)) = [] /\
    unlinks (events (upload_handler req fs)) =
      match file req with
      | Some f => [path f]
      | None => []
      end.
Proof.
  destruct (file req) as [f|] eqn:Hf.
  - destruct (upload_with_file_cases req fs f Hf) as [(_ & _ & Hrun)|(e & _ & Hrun)];
      rewrite Hrun; eexists; (split; [reflexivity|]);
      by destruct (ToBoolean (accessToken req)).
  - rewrite upload_no_file by done. by eexists.
Qed.

(** X7. The status of the answer: 400 without a file; with a file, 200 when
    the file is in storage on a writable volume and 500 otherwise. The
    token plays no part in it. *)
Theorem upload_status_table req fs :
  exists resp,
    result (upload_handler req fs) = Normal resp /\
    status_of resp =
      match file req with
      | None => 400
      | Some f =>
          if bool_decide (path f ∈ files fs) && negb (read_only fs)
          then 200 else 500
      end.
Proof.
  destruct (file req) as [f|] eqn:Hf.
  - destruct (upload_with_file_cases req fs f Hf)
      as [(Hin & Hro & Hrun)|(e & Hun & Hrun)];
      rewrite Hrun; eexists; (split; [reflexivity|]); simpl.
    + by rewrite (bool_decide_eq_true_2 _ Hin), Hro.
    + destruct (unlinkSync_cases (path f) fs)
        as [(_ & _ & Hok)|(e' & _ & [[Hout _]|(_ & Hro & _)])].
      * rewrite Hok in Hun. done.
      * by rewrite (bool_decide_eq_false_2 _ Hout).
      * rewrite Hro. by rewrite andb_false_r.
  - rewrite upload_no_file by done. by eexists.
Qed.


(** X9. The handler removes nothing but the uploaded file: storage never
    grows, every other file stays, and the volume keeps its mode. *)
Theorem upload_removes_only_its_file req fs :
  files (final_fs (upload_handler req fs)) ⊆ files fs /\
  read_only (final_fs (upload_handler req fs)) = read_only fs /\
  forall p, p ∈ files fs -> path <$> file req ≠ Some p ->
            p ∈ files (final_fs (upload_handler req fs)).
Proof.
  destruct (file req) as [f|] eqn:Hf.
  - destruct (upload_with_file_cases req fs f Hf)
      as [(Hin & Hro & Hrun)|(e & Hun & Hrun)];
      rewrite Hrun; unfold final_fs; simpl.
    + split; [by apply subseteq_difference_l|]. split; [done|].
      intros p Hp Hne. apply elem_of_difference. split; [done|].
      intros ->%elem_of_singleton. by apply Hne.
    + done.
  - rewrite upload_no_file by done. done.
Qed.

(** X10. Of the request the handler uses the path of the file and whether the
    token is truthy, nothing else: the value of the token, the name of the
    file and the other fields of the body have no effect on the run. *)
Theorem upload_reads_only req1 req2 fs :
  path <$> file req1 = path <$> file req2 ->
  ToBoolean (accessToken req1) = ToBoolean (accessToken req2) ->
  upload_handler req1 fs = upload_handler req2 fs.
Proof.
  intros Hpath Htok. unfold upload_handler, upload_try.
  destruct (file req1) as [f1|], (file req2) as [f2|]; simpl in Hpath;
    try done.
  injection Hpath as Hpath. by rewrite Hpath, Htok.
Qed.

(** X11. Accepting an upload and handling it leaves temporary storage as it
    was: on a writable volume, for a fresh file name and any body, multer's
    store followed by the handler ends in the initial filesystem, with a
    200 answer. *)
Theorem upload_round_trip original filename (b : option (value number)) fs :
  read_only fs = false ->
  upload_dest ++ filename ∉ files fs ->
  let stored := upload_single original filename fs in
  let run := upload_handler {| file := Some stored.1; body := b |} stored.2 in
  final_fs run = fs /\
  exists resp, result run = Normal resp /\ status_of resp = 200.
Proof.
  intros Hro Hfresh stored run. subst stored run.
  set (req := {| file := Some (upload_single original filename fs).1; body := b |}).
  destruct (upload_with_file_cases req (upload_single original filename fs).2
              (upload_single original filename fs).1 eq_refl)
    as [(_ & _ & Hrun)|(e & Hun & _)].
  - rewrite Hrun. unfold final_fs, result. simpl. split; [|by eexists].
    destruct fs as [fl ro]. simpl in *. subst ro. f_equal.
    apply set_eq. intros x.
    rewrite elem_of_difference, elem_of_union, elem_of_singleton.
    split.
    + intros [[Hx|Hx] Hne]; done.
    + intros Hx. split; [by left|]. intros ->. done.
  - exfalso.
    rewrite unlinkSync_removes in Hun; [done|apply upload_single_stored|done].
Qed.

End UploadRuns.

(** ** Startup *)

Section StartupFacts.
Context {number : Type} {number_ops : JSNumber number}.




End StartupFacts.

(** ** More concrete runs *)

Module MoreRuns.
Import Sample MoreSample.

(** The platform is unreachable: the message of the error is logged. *)
Lemma on_auth_failure_logged_witness :
  events (on_auth_handler env network_down auth_with_code storage) =
    [HttpPost (token_request env (Some (VStr (lit "abc"))))
              (NetworkError (lit "connect ECONNREFUSED"));
     ConsoleError
       [LogValue (Some (VStr (lit "Error exchanging token")));
        LogValue (Some (VStr (lit "connect ECONNREFUSED")))]] /\
  result (on_auth_handler env network_down auth_with_code storage) =
    Normal (Send 500 (lit "Token exchange failed")).
Proof.
  apply (on_auth_failure_logged env network_down auth_with_code storage).
  - reflexivity.
  - exact I.
Defined.

Lemma on_auth_reads_only_witness :
  on_auth_handler env network_ok auth_with_code storage =
  on_auth_handler env_other_port network_ok auth_other_state storage.
Proof.
  apply (on_auth_reads_only env env_other_port network_ok
           auth_with_code auth_other_state storage); reflexivity.
Defined.

Lemma redirect_location_shape_witness :
  302 = 302 /\
  exists q,
    lit "/?token=%7B%22access_token%22%3A%22act.1%202%2F3%22%2C%22expires_in%22%3A86400%2C%22scopes%22%3A%5B%22%5Cud800A%22%2Cnull%2Ctrue%5D%7D" =
      frontend env ++ lit "?token=" ++ q /\
    Forall (fun c => url_safe c = true) q.
Proof.
  apply (redirect_location_shape env network_ok auth_with_code storage).
  vm_compute. reflexivity.
Defined.


Lemma upload_reads_only_witness :
  upload_handler upload_with_token storage =
  upload_handler upload_other_token storage.
Proof.
  apply (upload_reads_only upload_with_token upload_other_token storage);
    reflexivity.
Defined.

Lemma upload_round_trip_witness :
  final_fs (upload_handler
              {| file := Some (upload_single (lit "clip.mp4") (lit "9a1b") storage).1;
                 body := Some (VObj [(lit "access_token", VStr (lit "tok"))]) |}
              (upload_single (lit "clip.mp4") (lit "9a1b") storage).2) = storage /\
  exists resp,
    result (upload_handler
              {| file := Some (upload_single (lit "clip.mp4") (lit "9a1b") storage).1;
                 body := Some (VObj [(lit "access_token", VStr (lit "tok"))]) |}
              (upload_single (lit "clip.mp4") (lit "9a1b") storage).2) = Normal resp /\
    status_of resp = 200.
Proof.
  apply (upload_round_trip (lit "clip.mp4") (lit "9a1b")
           (Some (VObj [(lit "access_token", VStr (lit "tok"))])) storage).
  - reflexivity.
  - apply (bool_decide_eq_false_1 _). vm_compute. reflexivity.
Defined.

End MoreRuns.
